(** * NetworkMap: the topology synthesizer and node styling

    A shallow embedding of [src/components/network/NetworkMap.tsx]: the
    [graphData] memo callback (device list to node/link graph), the
    [getDeviceIcon] lookup, the [getNodeColor] palette, the click handler,
    and the component's state with the effects and handlers that change it
    and the element tree it renders.  Timers, listeners and the memo cache
    are not part of the model.

    JavaScript strings are modelled as [string], array indices as [nat] and
    the coordinates computed from [Math.random] as binary64 floats.  A thrown
    exception is a [Throw] completion; the [links] array that the callback
    fills with [push] and the supply behind [Math.random] are threaded
    states. *)

From Stdlib Require Import Ascii Floats.
From stdpp Require Import base list strings gmap.

Local Open Scope string_scope.
Local Open Scope list_scope.

(** ** The JavaScript fragment the component relies on *)

Module JS.

Inductive Error : Type :=
| TypeError.

(** The outcome of evaluating a statement or expression. *)
Inductive Completion (A : Type) : Type :=
| Normal (a : A)
| Throw (e : Error).
Arguments Normal {A} a.
Arguments Throw {A} e.

(** Code that reads and writes a state [St] and may throw. *)
Definition M (St A : Type) : Type := St -> Completion (A * St).

Definition ret {St A} (a : A) : M St A := fun s => Normal (a, s).

Definition bind {St A B} (m : M St A) (k : A -> M St B) : M St B :=
  fun s =>
    match m s with
    | Normal (a, s') => k a s'
    | Throw e => Throw e
    end.

Definition throw {St A} (e : Error) : M St A := fun _ => Throw e.

(** A block that works on a local variable of its own, initially [init],
    and hands back its final value. *)
Definition withLocal {St L A} (init : L) (m : M L A) : M St L :=
  fun s =>
    match m init with
    | Normal (_, l) => Normal (l, s)
    | Throw e => Throw e
    end.

(** [arr.push(x)] on the array held in the state. *)
Definition push {A} (x : A) : M (list A) unit :=
  fun arr => Normal (tt, arr ++ [x]).

(** [arr.forEach((x, idx) => body)], the index starting at [idx]. *)
Fixpoint forEach_from {St A} (idx : nat) (arr : list A)
    (body : A -> nat -> M St unit) : M St unit :=
  match arr with
  | [] => ret tt
  | x :: rest => bind (body x idx) (fun _ => forEach_from (S idx) rest body)
  end.

(** [arr.map(f)] for an effectful callback. *)
Fixpoint map {St A B} (f : A -> M St B) (arr : list A) : M St (list B) :=
  match arr with
  | [] => ret []
  | x :: rest =>
      bind (f x) (fun y => bind (map f rest) (fun ys => ret (y :: ys)))
  end.

Definition forEach {St A} (arr : list A) (body : A -> nat -> M St unit)
  : M St unit :=
  forEach_from 0 arr body.

(** [o.prop] where [o] may be [undefined]: reading a property of
    [undefined] throws a [TypeError]. *)
Definition member {St A B} (o : option A) (prop : A -> B) : M St B :=
  match o with
  | Some a => ret (prop a)
  | None => throw TypeError
  end.

(** [a % b] on non-negative integers; [None] is [NaN] (when [b] is 0). *)
Definition rem (a b : nat) : option nat :=
  match b with
  | 0 => None
  | S _ => Some (a mod b)
  end.

(** [arr[i]] for a numeric [i]; [NaN] names no element, and an index past
    the end gives [undefined]. *)
Definition index {A} (arr : list A) (i : option nat) : option A :=
  match i with
  | Some n => arr !! n
  | None => None
  end.

(** Truthiness of a value that is an object or [undefined]. *)
Definition truthy {A} (o : option A) : bool :=
  match o with
  | Some _ => true
  | None => false
  end.

(** [String.prototype.toLowerCase]: the code units [A]..[Z] are mapped to
    [a]..[z] and every other code unit is kept, which is what JavaScript does
    on ASCII strings. *)
Definition lowerChar (c : ascii) : ascii :=
  let n := nat_of_ascii c in
  if (65 <=? n)%nat && (n <=? 90)%nat then ascii_of_nat (n + 32) else c.

Fixpoint toLowerCase (s : string) : string :=
  match s with
  | EmptyString => EmptyString
  | String c rest => String (lowerChar c) (toLowerCase rest)
  end.

(** [Math.random]: an unbounded supply of floats in [[0, 1)], read in
    order. *)
Record Random : Type := mkRandom {
  supply : nat -> float;
  drawn : nat;
}.

Definition Math_random : M Random float :=
  fun r => Normal (supply r (drawn r),
                   {| supply := supply r; drawn := S (drawn r) |}).

End JS.

Import JS.

Notation "x <- m ;; k" := (JS.bind m (fun x => k))
  (at level 100, m at next level, right associativity).
Notation "m ;;; k" := (JS.bind m (fun _ => k))
  (at level 100, right associativity).

(** ** Data model *)

(** Modelled from the spec: the [Device] type of [@/types/api], of which the
    component reads the four string fields [id], [name], [type] and
    [status]. *)
Module Device.
Record t : Type := mk {
  id : string;
  name : string;
  type : string;
  status : string;
}.
End Device.

Module Location.
Record t : Type := mk {
  lat : float;
  lng : float;
}.
End Location.

(** [<IconComponent />]: an element made from a component. *)
Inductive JSXElement (C : Type) : Type :=
| createElement (component : C).
Arguments createElement {C} component.

(** [interface GraphNode]; the optional layout fields [x], [y], [fx], [fy]
    are never assigned by this component and are left out. *)
Module GraphNode.
Record t (C : Type) : Type := mk {
  id : string;
  name : string;
  type : string;
  status : string;
  val : float;
  icon : option (JSXElement C);
  location : Location.t;
}.
Arguments mk {C}.
Arguments id {C}.
Arguments name {C}.
Arguments type {C}.
Arguments status {C}.
Arguments val {C}.
Arguments icon {C}.
Arguments location {C}.
End GraphNode.

Module GraphLink.
Record t : Type := mk {
  source : string;
  target : string;
  type : string;
  animated : bool;
}.
End GraphLink.

Module GraphData.
Record t (C : Type) : Type := mk {
  nodes : list (GraphNode.t C);
  links : list GraphLink.t;
}.
Arguments mk {C}.
Arguments nodes {C}.
Arguments links {C}.
End GraphData.

(** ** The component's functions *)

(** [status === "online"]. *)
Definition online (status : string) : bool := bool_decide (status = "online").

(** The callback of the [forEach] at line 133. *)
Definition gatewayLink (gateway : option Device.t) (device : Device.t) (_ : nat)
  : M (list GraphLink.t) unit :=
  gateway_id <- member gateway Device.id ;;
  push {| GraphLink.source := gateway_id;
          GraphLink.target := Device.id device;
          GraphLink.type := "straight";
          GraphLink.animated := online (Device.status device) |}.

(** Lines 131-140: connect all devices to the gateway (first device). *)
Definition connectGateway (devices : list Device.t) : M (list GraphLink.t) unit :=
  let gateway := devices !! 0 in
  forEach (drop 1 devices) (gatewayLink gateway).

(** The callback of the [forEach] at line 144. *)
Definition switchLink (switches : list Device.t) (sw : Device.t) (idx : nat)
  : M (list GraphLink.t) unit :=
  if (Z.of_nat idx <? Z.of_nat (length switches) - 1)%Z then
    next_id <- member (switches !! (idx + 1)) Device.id ;;
    both_online <-
      (if online (Device.status sw) then
         next_status <- member (switches !! (idx + 1)) Device.status ;;
         ret (online next_status)
       else ret false) ;;
    push {| GraphLink.source := Device.id sw;
            GraphLink.target := next_id;
            GraphLink.type := "straight";
            GraphLink.animated := both_online |}
  else ret tt.

(** Lines 142-153: connect switches to each other. *)
Definition connectSwitches (switches : list Device.t) : M (list GraphLink.t) unit :=
  forEach switches (switchLink switches).

(** The callback of the [forEach] at line 157. *)
Definition serverLink (switches : list Device.t) (server : Device.t) (idx : nat)
  : M (list GraphLink.t) unit :=
  let targetSwitch := index switches (rem idx (length switches)) in
  if truthy targetSwitch then
    target_id <- member targetSwitch Device.id ;;
    both_online <-
      (if online (Device.status server) then
         target_status <- member targetSwitch Device.status ;;
         ret (online target_status)
       else ret false) ;;
    push {| GraphLink.source := Device.id server;
            GraphLink.target := target_id;
            GraphLink.type := "straight";
            GraphLink.animated := both_online |}
  else ret tt.

(** Lines 155-167: connect servers to nearest switch. *)
Definition connectServers (switches servers : list Device.t)
  : M (list GraphLink.t) unit :=
  forEach servers (serverLink switches).

(** [devices.filter(d => d.type === 'switch')] and its sibling at line 156. *)
Definition switchesOf (devices : list Device.t) : list Device.t :=
  filter (fun d => Device.type d = "switch") devices.

Definition serversOf (devices : list Device.t) : list Device.t :=
  filter (fun d => Device.type d = "server") devices.

(** The statements that fill [links], lines 129-167. *)
Definition buildLinks (devices : list Device.t) : M (list GraphLink.t) unit :=
  connectGateway devices ;;;
  let switches := switchesOf devices in
  connectSwitches switches ;;;
  let servers := serversOf devices in
  connectServers switches servers.

Definition getNodeColor {C} (node : GraphNode.t C) : string :=
  if bool_decide (GraphNode.status node = "offline") then "#ef4444"
  else
    let t := toLowerCase (GraphNode.type node) in
    if bool_decide (t = "router") then "#3b82f6"
    else if bool_decide (t = "switch") then "#10b981"
    else if bool_decide (t = "server") then "#8b5cf6"
    else if bool_decide (t = "access-point") then "#3b82f6"
    else "#6b7280".

Section NetworkMap.

(** Modelled from the spec: [iconDictionary] of [./IconMapping], a lookup
    from a lowercased type string to a renderable component, or none. *)
Context {IconComponent : Type}.
Variable iconDictionary : string -> option IconComponent.

Definition getDeviceIcon (type : string) : option (JSXElement IconComponent) :=
  match iconDictionary (toLowerCase type) with
  | Some IconComponent => Some (createElement IconComponent)
  | None => None
  end.

(** The callback of [devices.map] at line 115, which builds one node. *)
Definition nodeOf (device : Device.t) : M Random (GraphNode.t IconComponent) :=
  let icon := getDeviceIcon (Device.type device) in
  r1 <- Math_random ;;
  r2 <- Math_random ;;
  ret {| GraphNode.id := Device.id device;
         GraphNode.name := Device.name device;
         GraphNode.type := Device.type device;
         GraphNode.status := Device.status device;
         GraphNode.val := 1%float;
         GraphNode.icon := icon;
         GraphNode.location :=
           {| Location.lat := (r1 * 180 - 90)%float;
              Location.lng := (r2 * 360 - 180)%float |} |}.

(** The callback of [useMemo], lines 114-170. *)
Definition graphData (devices : list Device.t) : M Random (GraphData.t IconComponent) :=
  nodes <- JS.map nodeOf devices ;;
  links <- withLocal [] (buildLinks devices) ;;
  ret {| GraphData.nodes := nodes; GraphData.links := links |}.

End NetworkMap.

(** ** The contents of [links] after each step, as plain lists *)

Definition hubLink (gateway device : Device.t) : GraphLink.t :=
  {| GraphLink.source := Device.id gateway;
     GraphLink.target := Device.id device;
     GraphLink.type := "straight";
     GraphLink.animated := bool_decide (Device.status device = "online") |}.

(** A link from [a] to [b] that is animated when both are online. *)
Definition pairLink (a b : Device.t) : GraphLink.t :=
  {| GraphLink.source := Device.id a;
     GraphLink.target := Device.id b;
     GraphLink.type := "straight";
     GraphLink.animated :=
       bool_decide (Device.status a = "online")
       && bool_decide (Device.status b = "online") |}.

Definition hubLinks (devices : list Device.t) : list GraphLink.t :=
  match devices with
  | [] => []
  | gateway :: rest => hubLink gateway <$> rest
  end.

Definition chainLinks (switches : list Device.t) : list GraphLink.t :=
  zip_with pairLink switches (drop 1 switches).

Fixpoint attachFrom (switches : list Device.t) (idx : nat)
    (servers : list Device.t) : list GraphLink.t :=
  match servers with
  | [] => []
  | server :: rest =>
      match index switches (rem idx (length switches)) with
      | Some sw => pairLink server sw :: attachFrom switches (S idx) rest
      | None => attachFrom switches (S idx) rest
      end
  end.

Definition allLinks (devices : list Device.t) : list GraphLink.t :=
  hubLinks devices
  ++ chainLinks (switchesOf devices)
  ++ attachFrom (switchesOf devices) 0 (serversOf devices).

(** The node built from [device] with the two draws [r1] and [r2]. *)
Definition projectNode {C} (icon : option (JSXElement C)) (device : Device.t)
    (r1 r2 : float) : GraphNode.t C :=
  {| GraphNode.id := Device.id device;
     GraphNode.name := Device.name device;
     GraphNode.type := Device.type device;
     GraphNode.status := Device.status device;
     GraphNode.val := 1%float;
     GraphNode.icon := icon;
     GraphNode.location :=
       {| Location.lat := (r1 * 180 - 90)%float;
          Location.lng := (r2 * 360 - 180)%float |} |}.

(** The nodes of [devices] when [k] draws have been made before. *)
Fixpoint nodesFrom {C} (icons : string -> option (JSXElement C))
    (supply : nat -> float) (k : nat) (devices : list Device.t)
  : list (GraphNode.t C) :=
  match devices with
  | [] => []
  | device :: rest =>
      projectNode (icons (Device.type device)) device (supply k) (supply (S k))
      :: nodesFrom icons supply (S (S k)) rest
  end.

(** Everything of a node but its coordinates. *)
Definition withoutLocation {C} (node : GraphNode.t C)
  : string * string * string * string * float * option (JSXElement C) :=
  (GraphNode.id node, GraphNode.name node, GraphNode.type node,
   GraphNode.status node, GraphNode.val node, GraphNode.icon node).

(** ** Strings that differ by letter case only *)

Definition isUpper (c : ascii) : bool :=
  let n := nat_of_ascii c in (65 <=? n)%nat && (n <=? 90)%nat.

(** Two code units that are one letter in either case, or are equal. *)
Definition sameLetter (c1 c2 : ascii) : bool :=
  bool_decide (c1 = c2)
  || (isUpper c1 && bool_decide (nat_of_ascii c2 = nat_of_ascii c1 + 32))
  || (isUpper c2 && bool_decide (nat_of_ascii c1 = nat_of_ascii c2 + 32)).

Fixpoint equalIgnoringCase (s t : string) : bool :=
  match s, t with
  | EmptyString, EmptyString => true
  | String a s', String b t' => sameLetter a b && equalIgnoringCase s' t'
  | _, _ => false
  end.

Definition differsOnlyByCase (s t : string) : Prop :=
  s <> t /\ equalIgnoringCase s t = true.

(** ** Sample input: the four devices of the specification's example *)

Definition sampleDevices : list Device.t :=
  [ Device.mk "gw" "Gateway" "router" "online";
    Device.mk "s1" "Switch 1" "switch" "online";
    Device.mk "s2" "Switch 2" "switch" "offline";
    Device.mk "srv1" "Server 1" "server" "online" ].

(** A dictionary with a component, named by its key, for three types. *)
Definition sampleIcons (key : string) : option string :=
  if bool_decide (key ∈ ["router"; "switch"; "server"]) then Some key else None.

Definition sampleRandom : Random :=
  {| supply := fun _ => 0.5%float; drawn := 0 |}.

(** ** The click handler *)

(** [arr.find(p)]: the first element that satisfies [p], or [undefined]. *)
Definition Array_find {A} (P : A -> Prop) `{forall x, Decision (P x)}
    (arr : list A) : option A :=
  snd <$> list_find P arr.

(** The [onNodeClick] handler passed to the force graph, lines 221-226.
    [onDeviceSelect] is the optional prop of the component. *)
Definition onNodeClick {St C} (devices : list Device.t)
    (onDeviceSelect : option (Device.t -> M St unit)) (node : GraphNode.t C)
  : M St unit :=
  let device := Array_find (fun d => Device.id d = GraphNode.id node) devices in
  match device, onDeviceSelect with
  | Some device, Some onDeviceSelect => onDeviceSelect device
  | _, _ => ret tt
  end.

(** ** The component's state, effects and handlers *)

Module Dimensions.
Record t : Type := mk {
  width : Z;
  height : Z;
}.
End Dimensions.

(** The argument of a call of [toast]. *)
Module Toast.
Record t : Type := mk {
  title : string;
  description : string;
  variant : string;
}.
End Toast.

(** The element behind [containerRef.current], with the two properties the
    component reads. *)
Module HTMLDivElement.
Record t : Type := mk {
  clientWidth : Z;
  clientHeight : Z;
}.
End HTMLDivElement.

(** The six [useState] cells of lines 48-53, and the calls of [toast] made
    so far. *)
Module Component.
Record t : Type := mk {
  devices : list Device.t;
  loading : bool;
  isMapLoaded : bool;
  mapsApiKey : string;
  mapError : option string;
  mapDimensions : Dimensions.t;
  toasts : list Toast.t;
}.

(** The state at the first render. *)
Definition initial : t :=
  {| devices := []; loading := true; isMapLoaded := false; mapsApiKey := "";
     mapError := None; mapDimensions := Dimensions.mk 0 0; toasts := [] |}.
End Component.

Definition setDevices (v : list Device.t) (c : Component.t) : Component.t :=
  Component.mk v (Component.loading c) (Component.isMapLoaded c)
    (Component.mapsApiKey c) (Component.mapError c)
    (Component.mapDimensions c) (Component.toasts c).

Definition setLoading (v : bool) (c : Component.t) : Component.t :=
  Component.mk (Component.devices c) v (Component.isMapLoaded c)
    (Component.mapsApiKey c) (Component.mapError c)
    (Component.mapDimensions c) (Component.toasts c).

Definition setIsMapLoaded (v : bool) (c : Component.t) : Component.t :=
  Component.mk (Component.devices c) (Component.loading c) v
    (Component.mapsApiKey c) (Component.mapError c)
    (Component.mapDimensions c) (Component.toasts c).

Definition setMapsApiKey (v : string) (c : Component.t) : Component.t :=
  Component.mk (Component.devices c) (Component.loading c)
    (Component.isMapLoaded c) v (Component.mapError c)
    (Component.mapDimensions c) (Component.toasts c).

Definition setMapError (v : option string) (c : Component.t) : Component.t :=
  Component.mk (Component.devices c) (Component.loading c)
    (Component.isMapLoaded c) (Component.mapsApiKey c) v
    (Component.mapDimensions c) (Component.toasts c).

Definition setMapDimensions (v : Dimensions.t) (c : Component.t) : Component.t :=
  Component.mk (Component.devices c) (Component.loading c)
    (Component.isMapLoaded c) (Component.mapsApiKey c) (Component.mapError c)
    v (Component.toasts c).

Definition toast (t : Toast.t) (c : Component.t) : Component.t :=
  Component.mk (Component.devices c) (Component.loading c)
    (Component.isMapLoaded c) (Component.mapsApiKey c) (Component.mapError c)
    (Component.mapDimensions c) (Component.toasts c ++ [t]).

(** Truthiness of a string, and of a string that may be [null]. *)
Definition truthyString (s : string) : bool := negb (bool_decide (s = "")).

Definition truthyStringOrNull (o : option string) : bool :=
  match o with
  | Some s => truthyString s
  | None => false
  end.

(** Lines 56-63; [current] is [containerRef.current]. *)
Definition updateDimensions (current : option HTMLDivElement.t)
    (c : Component.t) : Component.t :=
  match current with
  | Some element =>
      setMapDimensions
        {| Dimensions.width := HTMLDivElement.clientWidth element;
           Dimensions.height := HTMLDivElement.clientHeight element |} c
  | None => c
  end.

(** The effect of lines 70-77; [localStorage.getItem] is a lookup. *)
Definition apiKeyEffect (localStorage : gmap string string)
    (c : Component.t) : Component.t :=
  let savedApiKey := localStorage !! "VITE_GOOGLE_MAPS_API_KEY" in
  if truthyStringOrNull savedApiKey then
    match savedApiKey with
    | Some savedApiKey => setMapsApiKey savedApiKey c
    | None => c
    end
  else
    setMapError
      (Some "Google Maps API key not found. Please configure it in settings.") c.

(** How the promise of [api.getAllDevices()] settles. *)
Inductive Settled (A : Type) : Type :=
| Resolved (value : A)
| Rejected.
Arguments Resolved {A} value.
Arguments Rejected {A}.

(** Lines 79-96, from the call to the end of the [finally] block.  Only the
    awaited request can throw inside the [try]; [response] is how it
    settles, and it is not made when [networkDevices] is given. *)
Definition fetchDevices (networkDevices : option (list Device.t))
    (response : Settled (list Device.t)) (c : Component.t) : Component.t :=
  let c :=
    match networkDevices with
    | Some networkDevices => setDevices networkDevices c
    | None =>
        match response with
        | Resolved data => setDevices data c
        | Rejected =>
            toast {| Toast.title := "Error";
                     Toast.description := "Failed to fetch network data";
                     Toast.variant := "destructive" |} c
        end
    end in
  setLoading false c.

(** The first branch of the effect of lines 98-107. *)
Definition devicesEffect (networkDevices : list Device.t)
    (c : Component.t) : Component.t :=
  setLoading false (setDevices networkDevices c).

(** Lines 188-195; [message] is [error.message]. *)
Definition handleMapError (message : string) (c : Component.t) : Component.t :=
  toast {| Toast.title := "Error";
           Toast.description := "Failed to load Google Maps";
           Toast.variant := "destructive" |}
    (setMapError (Some message) c).

(** Lines 197-199. *)
Definition handleMapLoad (c : Component.t) : Component.t :=
  setIsMapLoaded true c.

(** What can happen to a mounted component: each event runs one of the
    functions above. *)
Inductive Event : Type :=
| Resized (current : option HTMLDivElement.t)
| ApiKeyRead
| DevicesPushed (networkDevices : list Device.t)
| FetchSettled (networkDevices : option (list Device.t))
    (response : Settled (list Device.t))
| MapFailed (message : string)
| MapLoaded.

Definition step (localStorage : gmap string string) (c : Component.t)
    (e : Event) : Component.t :=
  match e with
  | Resized current => updateDimensions current c
  | ApiKeyRead => apiKeyEffect localStorage c
  | DevicesPushed networkDevices => devicesEffect networkDevices c
  | FetchSettled networkDevices response => fetchDevices networkDevices response c
  | MapFailed message => handleMapError message c
  | MapLoaded => handleMapLoad c
  end.

Definition run (localStorage : gmap string string) (events : list Event)
    (c : Component.t) : Component.t :=
  foldl (step localStorage) c events.

(** The elements of lines 201-233, without their function and ref props. *)
#[warnings="-register-all"]
Inductive VNode (C : Type) : Type :=
| Null
| Fragment (children : list (VNode C))
| Div (className : string) (children : list (VNode C))
| LoadingState
| ErrorState (message : option string)
| MapComponent (mapsApiKey : string) (mapDimensions : Dimensions.t)
| ForceGraphComponent (graphData : GraphData.t C).
Arguments Null {C}.
Arguments Fragment {C} children.
Arguments Div {C} className children.
Arguments LoadingState {C}.
Arguments ErrorState {C} message.
Arguments MapComponent {C} mapsApiKey mapDimensions.
Arguments ForceGraphComponent {C} graphData.

(** The returned element, lines 201-233; [graph] is the memoized
    [graphData]. *)
Definition render {C} (c : Component.t) (graph : GraphData.t C) : VNode C :=
  Div "h-full w-full relative"
    [ if Component.loading c then LoadingState
      else
        Fragment
          [ if truthyStringOrNull (Component.mapError c) then
              ErrorState (Component.mapError c)
            else if truthyString (Component.mapsApiKey c) then
              MapComponent (Component.mapsApiKey c) (Component.mapDimensions c)
            else Null;
            Div "absolute inset-0" [ ForceGraphComponent graph ] ] ].

(** The components of a tree, in document order. *)
Fixpoint rendered {C} (v : VNode C) : list (VNode C) :=
  match v with
  | Null => []
  | Fragment children => flat_map rendered children
  | Div _ children => flat_map rendered children
  | other => [other]
  end.

(** The events that end with [setLoading(false)]. *)
Definition settles (e : Event) : Prop :=
  match e with
  | DevicesPushed _ | FetchSettled _ _ => True
  | _ => False
  end.

(** The events that call [toast]. *)
Definition notifies (e : Event) : bool :=
  match e with
  | FetchSettled None Rejected | MapFailed _ => true
  | _ => false
  end.

(** A list whose first device is a switch, and a storage with a key. *)
Definition switchFirstDevices : list Device.t :=
  [ Device.mk "s1" "Switch 1" "switch" "online";
    Device.mk "srv1" "Server 1" "server" "online";
    Device.mk "s2" "Switch 2" "switch" "offline" ].

Definition sampleStorage : gmap string string :=
  {[ "VITE_GOOGLE_MAPS_API_KEY" := "key-1" ]}.

(** ** Runs of the three steps *)

Section Steps.

Implicit Types (devices switches servers rest : list Device.t).
Implicit Types (acc : list GraphLink.t) (idx : nat).

Lemma forEach_gatewayLink gateway rest idx acc :
  forEach_from idx rest (gatewayLink (Some gateway)) acc
  = Normal (tt, acc ++ (hubLink gateway <$> rest)).
Proof.
  revert idx acc.
  induction rest as [|device rest IH]; intros idx acc; simpl.
  - unfold ret. by rewrite app_nil_r.
  - unfold bind at 1. cbn.
    rewrite IH. by rewrite <- app_assoc.
Qed.

Lemma connectGateway_run devices acc :
  connectGateway devices acc = Normal (tt, acc ++ hubLinks devices).
Proof.
  destruct devices as [|gateway rest]; unfold connectGateway, forEach.
  - cbn. by rewrite app_nil_r.
  - cbn [drop lookup list_lookup hubLinks]. apply forEach_gatewayLink.
Qed.

Lemma switchLink_last switches sw idx acc :
  length switches = S idx ->
  switchLink switches sw idx acc = Normal (tt, acc).
Proof.
  intros Hlen. unfold switchLink.
  destruct (Z.ltb_spec (Z.of_nat idx) (Z.of_nat (length switches) - 1)); [lia | done].
Qed.

Lemma switchLink_inner switches sw next idx acc :
  switches !! (idx + 1) = Some next ->
  switchLink switches sw idx acc = Normal (tt, acc ++ [pairLink sw next]).
Proof.
  intros Hnext. unfold switchLink.
  apply lookup_lt_Some in Hnext as Hlt.
  destruct (Z.ltb_spec (Z.of_nat idx) (Z.of_nat (length switches) - 1)); [|lia].
  rewrite Hnext. unfold pairLink, online.
  by destruct (bool_decide (Device.status sw = "online")).
Qed.

Lemma forEach_switchLink switches rest idx acc :
  drop idx switches = rest ->
  forEach_from idx rest (switchLink switches) acc
  = Normal (tt, acc ++ chainLinks rest).
Proof.
  revert idx acc.
  induction rest as [|sw rest IH]; intros idx acc Hdrop.
  - cbn. by rewrite app_nil_r.
  - assert (Hrest : drop (S idx) switches = rest).
    { replace (S idx) with (idx + 1) by lia.
      by rewrite <- drop_drop, Hdrop. }
    assert (Hnext : switches !! (idx + 1) = rest !! 0).
    { by rewrite <- lookup_drop, Hdrop. }
    cbn [forEach_from]. unfold bind at 1.
    destruct rest as [|next rest'].
    + rewrite switchLink_last.
      * rewrite (IH _ _ Hrest). done.
      * apply (f_equal length) in Hdrop, Hrest.
        rewrite length_drop in Hdrop, Hrest. cbn in *. lia.
    + rewrite (switchLink_inner _ _ next) by done.
      rewrite (IH _ _ Hrest). unfold chainLinks. cbn.
      by rewrite <- app_assoc.
Qed.

Lemma connectSwitches_run switches acc :
  connectSwitches switches acc = Normal (tt, acc ++ chainLinks switches).
Proof. by apply forEach_switchLink. Qed.

Lemma serverLink_run switches server idx acc :
  serverLink switches server idx acc
  = Normal (tt, acc ++ match index switches (rem idx (length switches)) with
                       | Some sw => [pairLink server sw]
                       | None => []
                       end).
Proof.
  unfold serverLink.
  destruct (index switches (rem idx (length switches))) as [sw|]; cbn.
  - unfold pairLink, online.
    by destruct (bool_decide (Device.status server = "online")).
  - unfold ret. by rewrite app_nil_r.
Qed.

Lemma forEach_serverLink switches servers idx acc :
  forEach_from idx servers (serverLink switches) acc
  = Normal (tt, acc ++ attachFrom switches idx servers).
Proof.
  revert idx acc.
  induction servers as [|server rest IH]; intros idx acc.
  - cbn. by rewrite app_nil_r.
  - cbn [forEach_from attachFrom]. unfold bind at 1.
    rewrite serverLink_run, IH.
    destruct (index switches (rem idx (length switches)));
      by rewrite <- app_assoc.
Qed.

Lemma connectServers_run switches servers acc :
  connectServers switches servers acc
  = Normal (tt, acc ++ attachFrom switches 0 servers).
Proof. apply forEach_serverLink. Qed.

Lemma buildLinks_run devices acc :
  buildLinks devices acc = Normal (tt, acc ++ allLinks devices).
Proof.
  unfold buildLinks, bind, allLinks.
  rewrite connectGateway_run, connectSwitches_run, connectServers_run.
  by rewrite <- !app_assoc.
Qed.

End Steps.

(** ** Shape of the three groups of links *)

Section Shape.

Implicit Types (devices switches servers rest : list Device.t).

Lemma length_hubLinks devices :
  length (hubLinks devices) = length devices - 1.
Proof.
  destruct devices as [|gateway rest]; cbn; [done|].
  rewrite length_fmap. lia.
Qed.

Lemma lookup_hubLinks gateway devices i :
  devices !! 0 = Some gateway ->
  hubLinks devices !! i = hubLink gateway <$> devices !! S i.
Proof.
  destruct devices as [|gateway' rest]; intros Hgw; [done|].
  injection Hgw as ->. cbn. apply list_lookup_fmap.
Qed.

Lemma length_chainLinks switches :
  length (chainLinks switches) = length switches - 1.
Proof.
  unfold chainLinks. rewrite length_zip_with, length_drop. lia.
Qed.

Lemma lookup_chainLinks switches i a b :
  switches !! i = Some a ->
  switches !! S i = Some b ->
  chainLinks switches !! i = Some (pairLink a b).
Proof.
  intros Ha Hb. unfold chainLinks.
  rewrite lookup_zip_with, Ha, lookup_drop. cbn. by rewrite Hb.
Qed.

Lemma attachFrom_no_switch servers idx :
  attachFrom [] idx servers = [].
Proof. revert idx. induction servers; intros idx; cbn; auto. Qed.

Lemma index_rem_Some switches idx :
  0 < length switches ->
  index switches (rem idx (length switches))
  = switches !! (idx mod length switches)
  /\ is_Some (switches !! (idx mod length switches)).
Proof.
  intros Hk. unfold rem.
  destruct (length switches) as [|k] eqn:Hlen; [lia|].
  split; [done|].
  apply lookup_lt_is_Some. rewrite Hlen. apply Nat.mod_upper_bound. lia.
Qed.

Lemma length_attachFrom switches servers idx :
  0 < length switches ->
  length (attachFrom switches idx servers) = length servers.
Proof.
  intros Hk. revert idx.
  induction servers as [|server rest IH]; intros idx; cbn; [done|].
  destruct (index_rem_Some switches idx Hk) as [-> [sw ->]].
  cbn. by rewrite IH.
Qed.

Lemma lookup_attachFrom switches servers idx i server :
  0 < length switches ->
  servers !! i = Some server ->
  exists sw,
    switches !! ((idx + i) mod length switches) = Some sw
    /\ attachFrom switches idx servers !! i = Some (pairLink server sw).
Proof.
  intros Hk. revert idx i.
  induction servers as [|server' rest IH]; intros idx i Hi; [done|].
  cbn [attachFrom].
  destruct (index_rem_Some switches idx Hk) as [-> [sw Hsw]].
  rewrite Hsw.
  destruct i as [|i]; cbn in Hi.
  - injection Hi as ->. exists sw. by rewrite Nat.add_0_r.
  - destruct (IH (S idx) i Hi) as (sw' & Hsw' & Hat).
    exists sw'. by replace (idx + S i) with (S idx + i) by lia.
Qed.

End Shape.

Section Endpoints.

Implicit Types (devices switches servers : list Device.t).

Lemma elem_of_attachFrom switches servers idx link :
  link ∈ attachFrom switches idx servers ->
  exists server sw,
    link = pairLink server sw /\ server ∈ servers /\ sw ∈ switches.
Proof.
  revert idx.
  induction servers as [|server rest IH]; intros idx Hin; cbn in Hin.
  - by apply elem_of_nil in Hin.
  - destruct (index switches (rem idx (length switches))) as [sw|] eqn:Hsw.
    + apply elem_of_cons in Hin as [->|Hin].
      * exists server, sw. split_and!; [done|left|].
        unfold index in Hsw. destruct (rem idx (length switches)); [|done].
        by eapply list_elem_of_lookup_2.
      * destruct (IH _ Hin) as (s & t & -> & Hs & Ht).
        exists s, t. split_and!; [done|by right|done].
    + destruct (IH _ Hin) as (s & t & -> & Hs & Ht).
      exists s, t. split_and!; [done|by right|done].
Qed.

(** Every link joins two devices of the list. *)
Lemma elem_of_allLinks devices link :
  link ∈ allLinks devices ->
  exists a b,
    a ∈ devices /\ b ∈ devices
    /\ GraphLink.source link = Device.id a
    /\ GraphLink.target link = Device.id b.
Proof.
  unfold allLinks. rewrite !elem_of_app. intros [Hhub|[Hchain|Hatt]].
  - destruct devices as [|gateway rest]; cbn in Hhub.
    + by apply elem_of_nil in Hhub.
    + apply list_elem_of_fmap in Hhub as (device & -> & Hin).
      exists gateway, device. split_and!; [left|by right|done|done].
  - apply elem_of_zip_with in Hchain as (a & b & -> & Ha & Hb).
    apply subseteq_drop in Hb.
    apply list_elem_of_filter in Ha as [_ Ha].
    apply list_elem_of_filter in Hb as [_ Hb].
    by exists a, b.
  - apply elem_of_attachFrom in Hatt as (server & sw & -> & Hs & Ht).
    apply list_elem_of_filter in Hs as [_ Hs].
    apply list_elem_of_filter in Ht as [_ Ht].
    by exists server, sw.
Qed.

End Endpoints.

(** ** Runs of the whole callback *)

Section Runs.

Context {IconComponent : Type}.
Variable iconDictionary : string -> option IconComponent.

Implicit Types (devices : list Device.t) (r : Random).

Lemma map_nodeOf_run devices r :
  JS.map (nodeOf iconDictionary) devices r
  = Normal (nodesFrom (getDeviceIcon iconDictionary) (supply r) (drawn r) devices,
            {| supply := supply r; drawn := drawn r + 2 * length devices |}).
Proof.
  revert r.
  induction devices as [|device rest IH]; intros [rand n]; cbn.
  - unfold ret. by rewrite Nat.add_0_r.
  - unfold bind at 1. cbn. rewrite IH. cbn.
    unfold ret, projectNode. do 3 f_equal. lia.
Qed.

Lemma graphData_run devices r :
  graphData iconDictionary devices r
  = Normal ({| GraphData.nodes :=
                 nodesFrom (getDeviceIcon iconDictionary) (supply r) (drawn r) devices;
               GraphData.links := allLinks devices |},
            {| supply := supply r; drawn := drawn r + 2 * length devices |}).
Proof.
  unfold graphData, bind. rewrite map_nodeOf_run.
  unfold withLocal. by rewrite buildLinks_run.
Qed.

Lemma withoutLocation_nodesFrom rand k devices :
  withoutLocation <$> nodesFrom (getDeviceIcon iconDictionary) rand k devices
  = (fun d => (Device.id d, Device.name d, Device.type d, Device.status d,
               1%float, getDeviceIcon iconDictionary (Device.type d)))
    <$> devices.
Proof.
  revert k. induction devices as [|device rest IH]; intros k; cbn; [done|].
  by rewrite IH.
Qed.

Lemma id_nodesFrom rand k devices :
  GraphNode.id <$> nodesFrom (getDeviceIcon iconDictionary) rand k devices
  = Device.id <$> devices.
Proof.
  revert k. induction devices as [|device rest IH]; intros k; cbn; [done|].
  by rewrite IH.
Qed.

End Runs.

(** ** Letter case *)

Lemma lowerChar_sameLetter c1 c2 :
  sameLetter c1 c2 = true -> lowerChar c1 = lowerChar c2.
Proof.
  unfold sameLetter, isUpper, lowerChar.
  rewrite !orb_true_iff, !andb_true_iff, !bool_decide_eq_true.
  intros [[->|[[H1 H2] Heq]]|[[H1 H2] Heq]]; [done| |].
  - rewrite H1, H2, Heq. cbn.
    apply Nat.leb_le in H1, H2.
    destruct (Nat.leb_spec (nat_of_ascii c1 + 32) 90); [lia|].
    rewrite andb_false_r, <- Heq. apply ascii_nat_embedding.
  - rewrite H1, H2, Heq. cbn.
    apply Nat.leb_le in H1, H2.
    destruct (Nat.leb_spec (nat_of_ascii c2 + 32) 90); [lia|].
    rewrite andb_false_r, <- Heq. symmetry. apply ascii_nat_embedding.
Qed.

Lemma toLowerCase_equalIgnoringCase s t :
  equalIgnoringCase s t = true -> toLowerCase s = toLowerCase t.
Proof.
  revert t. induction s as [|a s IH]; intros [|b t]; cbn; try done.
  rewrite andb_true_iff. intros [Hab Hst].
  by rewrite (lowerChar_sameLetter _ _ Hab), (IH _ Hst).
Qed.

(** ** The example of the specification *)

Example sample_links :
  buildLinks sampleDevices []
  = Normal (tt, [ GraphLink.mk "gw" "s1" "straight" true;
                  GraphLink.mk "gw" "s2" "straight" false;
                  GraphLink.mk "gw" "srv1" "straight" true;
                  GraphLink.mk "s1" "s2" "straight" false;
                  GraphLink.mk "srv1" "s1" "straight" true ]).
Proof. reflexivity. Qed.

(** Reading [gateway.id] when there is no first device would throw; the
    callback that does so runs once per device after the first. *)
Example gatewayLink_undefined device idx acc :
  gatewayLink None device idx acc = Throw TypeError.
Proof. reflexivity. Qed.

Example servers_without_switch :
  buildLinks [ Device.mk "a" "A" "server" "online";
               Device.mk "b" "B" "server" "online" ] []
  = Normal (tt, [ GraphLink.mk "a" "b" "straight" true ]).
Proof. reflexivity. Qed.

Example color_of_case_variant :
  getNodeColor
    (GraphNode.mk (C := string) "s3" "Switch 3" "Switch" "online" 1%float None
       (Location.mk 0%float 0%float))
  = "#10b981".
Proof. reflexivity. Qed.

(** ** The properties of the specification *)

Section Properties.

Context {IconComponent : Type}.
Variable iconDictionary : string -> option IconComponent.

Implicit Types (devices : list Device.t) (r : Random).

(** C1: for the empty device list the synthesizer does not throw; it returns
    the graph with no node and no link, and none of the three steps (hub,
    switch chain, server attachment) pushes a link. *)
Theorem graphData_empty r :
  graphData iconDictionary [] r
  = Normal ({| GraphData.nodes := []; GraphData.links := [] |}, r)
  /\ connectGateway [] [] = Normal (tt, [])
  /\ connectSwitches (switchesOf []) [] = Normal (tt, [])
  /\ connectServers (switchesOf []) (serversOf []) [] = Normal (tt, []).
Proof. by split_and!. Qed.

(** C2: for a non-empty device list of length n, the hub step pushes exactly
    n - 1 links, the i-th of them from the first device to the device at
    position i + 1, animated exactly when that device's status is "online";
    they are the first n - 1 links of the result. *)
Theorem hub_links devices gateway :
  devices !! 0 = Some gateway ->
  exists hub,
    connectGateway devices [] = Normal (tt, hub)
    /\ length hub = length devices - 1
    /\ (forall i,
          hub !! i
          = (fun device =>
               {| GraphLink.source := Device.id gateway;
                  GraphLink.target := Device.id device;
                  GraphLink.type := "straight";
                  GraphLink.animated :=
                    bool_decide (Device.status device = "online") |})
            <$> devices !! S i)
    /\ forall r, exists g r',
         graphData iconDictionary devices r = Normal (g, r')
         /\ take (length devices - 1) (GraphData.links g) = hub.
Proof.
  intros Hgw. exists (hubLinks devices). split_and!.
  - apply connectGateway_run.
  - apply length_hubLinks.
  - intros i. by apply lookup_hubLinks.
  - intros r. eexists _, _. split; [apply graphData_run|]. cbn.
    unfold allLinks. apply take_app_length'. by rewrite length_hubLinks.
Qed.

(** C3: with k switches and m servers (both filtered in input order), when
    k >= 1 the attachment step pushes exactly m links, the i-th from server i
    to switch i mod k, animated exactly when both are "online"; when k = 0 it
    pushes none.  In both cases the step and the synthesizer return normally,
    and these links are the last ones of the result. *)
Theorem server_round_robin devices :
  let switches := filter (fun d => Device.type d = "switch") devices in
  let servers := filter (fun d => Device.type d = "server") devices in
  exists attached,
    connectServers switches servers [] = Normal (tt, attached)
    /\ (1 <= length switches ->
        length attached = length servers
        /\ forall i server, servers !! i = Some server ->
             exists sw,
               switches !! (i mod length switches) = Some sw
               /\ attached !! i
                  = Some {| GraphLink.source := Device.id server;
                            GraphLink.target := Device.id sw;
                            GraphLink.type := "straight";
                            GraphLink.animated :=
                              bool_decide (Device.status server = "online")
                              && bool_decide (Device.status sw = "online") |})
    /\ (length switches = 0 -> attached = [])
    /\ forall r, exists g r',
         graphData iconDictionary devices r = Normal (g, r')
         /\ drop (length (GraphData.links g) - length attached)
              (GraphData.links g) = attached.
Proof.
  intros switches servers.
  exists (attachFrom switches 0 servers). split_and!.
  - apply connectServers_run.
  - intros Hk. split.
    + apply length_attachFrom. lia.
    + intros i server Hi.
      destruct (lookup_attachFrom switches servers 0 i server) as (sw & Hsw & Hat);
        [lia|done|].
      by exists sw.
  - intros Hk. apply nil_length_inv in Hk. rewrite Hk.
    apply attachFrom_no_switch.
  - intros r. eexists _, _. split; [apply graphData_run|]. cbn.
    unfold allLinks. rewrite app_assoc.
    apply drop_app_length'. rewrite !length_app.
    change (attachFrom switches 0 servers)
      with (attachFrom (switchesOf devices) 0 (serversOf devices)).
    lia.
Qed.

(** C4: the node list has the length of the device list, and the node ids
    are the device ids in input order. *)
Theorem nodes_follow_devices devices r :
  exists g r',
    graphData iconDictionary devices r = Normal (g, r')
    /\ length (GraphData.nodes g) = length devices
    /\ GraphNode.id <$> GraphData.nodes g = Device.id <$> devices.
Proof.
  eexists _, _. split; [apply graphData_run|]. cbn.
  pose proof (id_nodesFrom iconDictionary (supply r) (drawn r) devices) as Hid.
  split; [|done].
  apply (f_equal length) in Hid. by rewrite !length_fmap in Hid.
Qed.

(** C5: with s switches, the chain step pushes max(0, s - 1) links; the i-th
    joins switch i to switch i + 1 (in their input order) and is animated
    exactly when both are "online".  They follow the hub links in the
    result. *)
Theorem switch_chain devices :
  let switches := filter (fun d => Device.type d = "switch") devices in
  exists chain,
    connectSwitches switches [] = Normal (tt, chain)
    /\ Z.of_nat (length chain) = Z.max 0 (Z.of_nat (length switches) - 1)
    /\ (forall i a b,
          switches !! i = Some a -> switches !! S i = Some b ->
          chain !! i
          = Some {| GraphLink.source := Device.id a;
                    GraphLink.target := Device.id b;
                    GraphLink.type := "straight";
                    GraphLink.animated :=
                      bool_decide (Device.status a = "online")
                      && bool_decide (Device.status b = "online") |})
    /\ forall r, exists g r',
         graphData iconDictionary devices r = Normal (g, r')
         /\ take (length chain)
              (drop (length devices - 1) (GraphData.links g)) = chain.
Proof.
  intros switches. exists (chainLinks switches). split_and!.
  - apply connectSwitches_run.
  - rewrite length_chainLinks. lia.
  - intros i a b Ha Hb. by apply lookup_chainLinks.
  - intros r. eexists _, _. split; [apply graphData_run|]. cbn.
    unfold allLinks.
    rewrite drop_app_length' by (by rewrite length_hubLinks).
    by apply take_app_length'.
Qed.

(** C6: two calls on the same device list, whatever [Math.random] yields in
    each (the second may start from the state the first one left), return
    the same nodes up to their coordinates, in the same order, and identical
    link lists. *)
Theorem graphData_deterministic devices r1 r2 :
  exists g1 r1' g2 r2',
    graphData iconDictionary devices r1 = Normal (g1, r1')
    /\ graphData iconDictionary devices r2 = Normal (g2, r2')
    /\ withoutLocation <$> GraphData.nodes g1
       = withoutLocation <$> GraphData.nodes g2
    /\ GraphData.links g1 = GraphData.links g2.
Proof.
  eexists _, _, _, _.
  split; [apply graphData_run|]. split; [apply graphData_run|]. cbn.
  split; [|done]. by rewrite !withoutLocation_nodesFrom.
Qed.

(** C7: for a non-empty device list, the source and the target of every link
    of the result are ids of nodes of the result. *)
Theorem links_reference_nodes devices r :
  devices <> [] ->
  exists g r',
    graphData iconDictionary devices r = Normal (g, r')
    /\ forall link, link ∈ GraphData.links g ->
         GraphLink.source link ∈ (GraphNode.id <$> GraphData.nodes g)
         /\ GraphLink.target link ∈ (GraphNode.id <$> GraphData.nodes g).
Proof.
  intros _. eexists _, _. split; [apply graphData_run|]. cbn.
  intros link Hlink. rewrite id_nodesFrom.
  apply elem_of_allLinks in Hlink as (a & b & Ha & Hb & -> & ->).
  split; by apply list_elem_of_fmap_2.
Qed.

(** C8: an offline node gets the alert color whatever its type; any other
    node gets the color its lowercased type has in the palette, and the
    neutral gray when the palette does not have it.  The function is total:
    it always returns one of these five color codes. *)
Theorem getNodeColor_spec (node : GraphNode.t IconComponent) :
  (GraphNode.status node = "offline" -> getNodeColor node = "#ef4444")
  /\ (GraphNode.status node <> "offline" ->
      let t := toLowerCase (GraphNode.type node) in
      (t = "router" -> getNodeColor node = "#3b82f6")
      /\ (t = "switch" -> getNodeColor node = "#10b981")
      /\ (t = "server" -> getNodeColor node = "#8b5cf6")
      /\ (t = "access-point" -> getNodeColor node = "#3b82f6")
      /\ (t ∉ ["router"; "switch"; "server"; "access-point"] ->
          getNodeColor node = "#6b7280"))
  /\ getNodeColor node ∈ ["#ef4444"; "#3b82f6"; "#10b981"; "#8b5cf6"; "#6b7280"].
Proof.
  unfold getNodeColor. split_and!.
  - intros ->. done.
  - intros Hon. rewrite bool_decide_eq_false_2 by done. cbn zeta.
    split_and!; try (by intros ->).
    intros Hout. rewrite !not_elem_of_cons in Hout.
    destruct Hout as (Hrouter & Hswitch & Hserver & Hap & _).
    by rewrite !bool_decide_eq_false_2.
  - repeat case_bool_decide;
      repeat first [apply list_elem_of_here | apply list_elem_of_further].
Qed.

(** C9: the nodes come in the order of the devices they are projected from,
    and the links are what the hub step appends, then what the switch-chain
    step appends, then what the server-attachment step appends. *)
Theorem output_order devices r :
  exists g r' hub chain attached,
    graphData iconDictionary devices r = Normal (g, r')
    /\ (forall acc, connectGateway devices acc = Normal (tt, acc ++ hub))
    /\ (forall acc,
          connectSwitches (switchesOf devices) acc = Normal (tt, acc ++ chain))
    /\ (forall acc,
          connectServers (switchesOf devices) (serversOf devices) acc
          = Normal (tt, acc ++ attached))
    /\ GraphData.links g = hub ++ chain ++ attached
    /\ forall i,
         withoutLocation <$> GraphData.nodes g !! i
         = (fun d => (Device.id d, Device.name d, Device.type d,
                      Device.status d, 1%float,
                      getDeviceIcon iconDictionary (Device.type d)))
           <$> devices !! i.
Proof.
  eexists _, _, _, _, _. split; [apply graphData_run|]. cbn.
  split; [apply connectGateway_run|].
  split; [apply connectSwitches_run|].
  split; [apply connectServers_run|].
  split; [done|].
  intros i. by rewrite <- !list_lookup_fmap, withoutLocation_nodesFrom.
Qed.

(** C10: a device whose type differs from "switch" (or from "server") only by
    letter case gets the icon and the color of that type, yet is in neither
    filtered list: the switch-chain and server-attachment steps work on the
    same switches and servers as if the device were not in the list. *)
Theorem case_variant_styled_not_linked (device : Device.t) (kind : string) :
  kind = "switch" \/ kind = "server" ->
  differsOnlyByCase (Device.type device) kind ->
  getDeviceIcon iconDictionary (Device.type device)
  = getDeviceIcon iconDictionary kind
  /\ (forall node node' : GraphNode.t IconComponent,
        GraphNode.type node = Device.type device ->
        GraphNode.type node' = kind ->
        GraphNode.status node' = GraphNode.status node ->
        getNodeColor node = getNodeColor node')
  /\ forall before after,
       (device ∉ switchesOf (before ++ device :: after))
       /\ (device ∉ serversOf (before ++ device :: after))
       /\ switchesOf (before ++ device :: after) = switchesOf (before ++ after)
       /\ serversOf (before ++ device :: after) = serversOf (before ++ after).
Proof.
  intros Hkind [Hne Hcase].
  apply toLowerCase_equalIgnoringCase in Hcase.
  assert (Hswitch : Device.type device <> "switch").
  { destruct Hkind as [->| ->]; [done|]. by intros Heq; rewrite Heq in Hcase. }
  assert (Hserver : Device.type device <> "server").
  { destruct Hkind as [->| ->]; [|done]. by intros Heq; rewrite Heq in Hcase. }
  split_and!.
  - unfold getDeviceIcon. by rewrite Hcase.
  - intros node node' Hty Hty' Hst. unfold getNodeColor.
    by rewrite Hty, Hty', Hst, Hcase.
  - intros before after. unfold switchesOf, serversOf.
    rewrite !filter_app, !filter_cons_False by done.
    split_and!; [| |done|done];
      rewrite <- filter_app, list_elem_of_filter; by intros [? _].
Qed.

End Properties.

(** ** The properties at the sample input *)

Lemma hub_links_witness :
  exists hub,
    connectGateway sampleDevices [] = Normal (tt, hub)
    /\ length hub = 3
    /\ hub !! 1 = Some (GraphLink.mk "gw" "s2" "straight" false).
Proof.
  destruct (hub_links sampleIcons sampleDevices
              (Device.mk "gw" "Gateway" "router" "online") eq_refl)
    as (hub & Hrun & Hlen & Hat & _).
  exists hub. split_and!; [exact Hrun|exact Hlen|exact (Hat 1)].
Defined.

Lemma server_round_robin_witness :
  exists attached,
    connectServers (switchesOf sampleDevices) (serversOf sampleDevices) []
    = Normal (tt, attached)
    /\ length attached = 1.
Proof.
  destruct (server_round_robin (IconComponent := string) sampleIcons sampleDevices)
    as (attached & Hrun & Hsome & _).
  exists attached. split; [exact Hrun|].
  apply Hsome. vm_compute. lia.
Defined.

Lemma switch_chain_witness :
  exists chain,
    connectSwitches (switchesOf sampleDevices) [] = Normal (tt, chain)
    /\ chain !! 0 = Some (GraphLink.mk "s1" "s2" "straight" false).
Proof.
  destruct (switch_chain (IconComponent := string) sampleIcons sampleDevices)
    as (chain & Hrun & _ & Hat & _).
  exists chain. split; [exact Hrun|].
  exact (Hat 0 (Device.mk "s1" "Switch 1" "switch" "online")
               (Device.mk "s2" "Switch 2" "switch" "offline") eq_refl eq_refl).
Defined.

Lemma links_reference_nodes_witness :
  exists g r',
    graphData sampleIcons sampleDevices sampleRandom = Normal (g, r')
    /\ forall link, link ∈ GraphData.links g ->
         GraphLink.source link ∈ (GraphNode.id <$> GraphData.nodes g)
         /\ GraphLink.target link ∈ (GraphNode.id <$> GraphData.nodes g).
Proof.
  apply (links_reference_nodes sampleIcons sampleDevices sampleRandom).
  discriminate.
Defined.

Lemma getNodeColor_spec_witness :
  getNodeColor
    (GraphNode.mk (C := string) "s2" "Switch 2" "switch" "offline" 1%float None
       (Location.mk 0%float 0%float))
  = "#ef4444".
Proof.
  apply (getNodeColor_spec
           (GraphNode.mk (C := string) "s2" "Switch 2" "switch" "offline" 1%float
              None (Location.mk 0%float 0%float))).
  reflexivity.
Defined.

Lemma case_variant_styled_not_linked_witness :
  getDeviceIcon sampleIcons "Switch" = getDeviceIcon sampleIcons "switch"
  /\ Device.mk "s3" "Switch 3" "Switch" "online"
     ∉ switchesOf (sampleDevices ++ [Device.mk "s3" "Switch 3" "Switch" "online"]).
Proof.
  destruct (case_variant_styled_not_linked sampleIcons
              (Device.mk "s3" "Switch 3" "Switch" "online") "switch")
    as (Hicon & _ & Hlists).
  - left. reflexivity.
  - split; [discriminate|reflexivity].
  - split; [exact Hicon|].
    exact (proj1 (Hlists sampleDevices [])).
Defined.

(** ** Further properties of the synthesized graph *)

Section Graph.

Context {IconComponent : Type}.
Variable iconDictionary : string -> option IconComponent.

Implicit Types (devices : list Device.t) (r : Random).

Lemma lookup_nodesFrom (icons : string -> option (JSXElement IconComponent))
    rand k devices i device :
  devices !! i = Some device ->
  nodesFrom icons rand k devices !! i
  = Some (projectNode (icons (Device.type device)) device
            (rand (k + 2 * i)) (rand (k + 2 * i + 1))).
Proof.
  revert k i. induction devices as [|d rest IH]; intros k i Hi; [done|].
  destruct i as [|i]; cbn in *.
  - injection Hi as ->. by rewrite Nat.add_0_r, Nat.add_1_r.
  - rewrite (IH _ _ Hi).
    assert (Heq : S (S k) + (i + (i + 0)) = k + S (i + S (i + 0))) by lia.
    by rewrite Heq.
Qed.

(** X1: the number of links: one per device after the first, one per switch
    after the first, and one per server when there is a switch. *)
Theorem link_count devices r :
  exists g r',
    graphData iconDictionary devices r = Normal (g, r')
    /\ length (GraphData.links g)
       = (length devices - 1)
         + (length (switchesOf devices) - 1)
         + (if decide (length (switchesOf devices) = 0) then 0
            else length (serversOf devices)).
Proof.
  eexists _, _. split; [apply graphData_run|]. cbn.
  unfold allLinks. rewrite !length_app, length_hubLinks, length_chainLinks.
  case_decide as Hk.
  - apply nil_length_inv in Hk. rewrite Hk, attachFrom_no_switch. cbn. lia.
  - rewrite length_attachFrom by lia. lia.
Qed.

(** X2: a call draws from [Math.random] exactly twice per device and nothing
    else: node i gets its latitude from draw 2i and its longitude from draw
    2i + 1 of the call. *)
Theorem random_draws devices r :
  exists g r',
    graphData iconDictionary devices r = Normal (g, r')
    /\ supply r' = supply r
    /\ drawn r' = drawn r + 2 * length devices
    /\ forall i node, GraphData.nodes g !! i = Some node ->
         GraphNode.location node
         = {| Location.lat := (supply r (drawn r + 2 * i) * 180 - 90)%float;
              Location.lng := (supply r (drawn r + 2 * i + 1) * 360 - 180)%float |}.
Proof.
  eexists _, _. split; [apply graphData_run|]. cbn.
  split; [done|]. split; [done|].
  intros i node Hnode.
  destruct (devices !! i) as [device|] eqn:Hdev.
  - rewrite (lookup_nodesFrom _ _ _ _ _ _ Hdev) in Hnode. by injection Hnode as <-.
  - apply lookup_lt_Some in Hnode. apply lookup_ge_None in Hdev.
    pose proof (id_nodesFrom iconDictionary (supply r) (drawn r) devices) as Hid.
    apply (f_equal length) in Hid. rewrite !length_fmap in Hid. lia.
Qed.

Lemma fmap_NoDup_inj {A B} (f : A -> B) (l : list A) x y :
  NoDup (f <$> l) -> x ∈ l -> y ∈ l -> f x = f y -> x = y.
Proof.
  intros Hnd [i Hi]%list_elem_of_lookup [j Hj]%list_elem_of_lookup Heq.
  assert (i = j) as ->.
  { apply (NoDup_lookup (f <$> l) i j (f x)); [done|..].
    - by rewrite list_lookup_fmap, Hi.
    - by rewrite list_lookup_fmap, Hj, Heq. }
  congruence.
Qed.

(** X3: when the device ids are pairwise distinct, no link joins a node to
    itself. *)
Theorem no_self_link devices r :
  NoDup (Device.id <$> devices) ->
  exists g r',
    graphData iconDictionary devices r = Normal (g, r')
    /\ forall link, link ∈ GraphData.links g ->
         GraphLink.source link <> GraphLink.target link.
Proof.
  intros Hnd. eexists _, _. split; [apply graphData_run|]. cbn.
  intros link. unfold allLinks. rewrite !elem_of_app.
  intros [Hhub|[Hchain|Hatt]].
  - destruct devices as [|gateway rest]; cbn in Hhub.
    { by apply elem_of_nil in Hhub. }
    apply list_elem_of_fmap in Hhub as (device & -> & Hin).
    cbn in Hnd. apply NoDup_cons in Hnd as [Hfresh _].
    cbn. intros Heq. apply Hfresh. rewrite Heq.
    by apply list_elem_of_fmap_2.
  - apply list_elem_of_lookup in Hchain as [k Hk].
    apply lookup_zip_with_Some in Hk as (a & b & -> & Ha & Hb).
    rewrite lookup_drop in Hb. cbn. intros Heq.
    assert (Hsw : NoDup (Device.id <$> switchesOf devices)).
    { eapply sublist_NoDup; [exact Hnd|].
      apply fmap_sublist, sublist_filter. }
    assert (k = 1 + k); [|lia].
    apply (NoDup_lookup _ k (1 + k) (Device.id a) Hsw).
    + by rewrite list_lookup_fmap, Ha.
    + by rewrite list_lookup_fmap, Hb, Heq.
  - apply elem_of_attachFrom in Hatt as (server & sw & -> & Hs & Ht).
    apply list_elem_of_filter in Hs as [Hserver Hs].
    apply list_elem_of_filter in Ht as [Hswitch Ht].
    cbn. intros Heq.
    assert (server = sw) as -> by (by eapply fmap_NoDup_inj).
    by rewrite Hswitch in Hserver.
Qed.

(** X4: links are not deduplicated: when the first device is a switch and there
    is another switch, the link from the first device to the next switch is
    emitted twice, once as a hub link and once as a chain link. *)
Theorem gateway_switch_linked_twice devices gateway next r :
  devices !! 0 = Some gateway ->
  Device.type gateway = "switch" ->
  switchesOf devices !! 1 = Some next ->
  exists g r' i j hub chain,
    graphData iconDictionary devices r = Normal (g, r')
    /\ i < length devices - 1 <= j
    /\ GraphData.links g !! i = Some hub
    /\ GraphData.links g !! j = Some chain
    /\ GraphLink.source hub = Device.id gateway
    /\ GraphLink.source chain = Device.id gateway
    /\ GraphLink.target hub = Device.id next
    /\ GraphLink.target chain = Device.id next.
Proof.
  intros Hgw Hty Hnext.
  destruct devices as [|gateway' rest]; [done|]. injection Hgw as ->.
  assert (Hsw : switchesOf (gateway :: rest) = gateway :: switchesOf rest).
  { unfold switchesOf. by rewrite filter_cons_True. }
  rewrite Hsw in Hnext. cbn in Hnext.
  assert (Hin : next ∈ rest).
  { apply list_elem_of_lookup_2 in Hnext.
    by apply list_elem_of_filter in Hnext as [_ ?]. }
  apply list_elem_of_lookup in Hin as [i Hi].
  apply lookup_lt_Some in Hi as Hlt.
  exists {| GraphData.nodes :=
              nodesFrom (getDeviceIcon iconDictionary) (supply r) (drawn r)
                (gateway :: rest);
            GraphData.links := allLinks (gateway :: rest) |}.
  eexists _, i, (length rest), (hubLink gateway next), (pairLink gateway next).
  split; [apply graphData_run|]. cbn [GraphData.links length].
  split; [lia|]. unfold allLinks. cbn [hubLinks].
  split_and!; try done.
  - rewrite lookup_app_l by (by rewrite length_fmap).
    by rewrite list_lookup_fmap, Hi.
  - rewrite lookup_app_r by (by rewrite length_fmap).
    rewrite length_fmap, Nat.sub_diag, Hsw.
    rewrite lookup_app_l.
    + by apply lookup_chainLinks.
    + rewrite length_chainLinks. apply lookup_lt_Some in Hnext. cbn. lia.
Qed.

(** X5: icon and color depend on the type only up to letter case. *)
Theorem styling_ignores_case (s t : string) :
  equalIgnoringCase s t = true ->
  getDeviceIcon iconDictionary s = getDeviceIcon iconDictionary t
  /\ forall node node' : GraphNode.t IconComponent,
       GraphNode.type node = s -> GraphNode.type node' = t ->
       GraphNode.status node = GraphNode.status node' ->
       getNodeColor node = getNodeColor node'.
Proof.
  intros Hcase%toLowerCase_equalIgnoringCase. split.
  - unfold getDeviceIcon. by rewrite Hcase.
  - intros node node' <- <- Hst. unfold getNodeColor. by rewrite Hcase, Hst.
Qed.

Lemma allLinks_cases devices link :
  link ∈ allLinks devices ->
  (exists gateway device,
     devices !! 0 = Some gateway /\ device ∈ devices
     /\ link = hubLink gateway device)
  \/ (exists a b, a ∈ devices /\ b ∈ devices /\ link = pairLink a b).
Proof.
  unfold allLinks. rewrite !elem_of_app. intros [Hhub|[Hchain|Hatt]].
  - left. destruct devices as [|gateway rest]; cbn in Hhub.
    { by apply elem_of_nil in Hhub. }
    apply list_elem_of_fmap in Hhub as (device & -> & Hin).
    exists gateway, device. split_and!; [done|by right|done].
  - right. apply elem_of_zip_with in Hchain as (a & b & -> & Ha & Hb).
    apply subseteq_drop in Hb.
    apply list_elem_of_filter in Ha as [_ Ha].
    apply list_elem_of_filter in Hb as [_ Hb].
    by exists a, b.
  - right. apply elem_of_attachFrom in Hatt as (server & sw & -> & Hs & Ht).
    apply list_elem_of_filter in Hs as [_ Hs].
    apply list_elem_of_filter in Ht as [_ Ht].
    by exists server, sw.
Qed.

(** X6: with pairwise distinct device ids, an animated link never points at a
    device that is not online: the device with the target's id has status
    "online". *)
Theorem animated_target_online devices r :
  NoDup (Device.id <$> devices) ->
  exists g r',
    graphData iconDictionary devices r = Normal (g, r')
    /\ forall link device,
         link ∈ GraphData.links g ->
         GraphLink.animated link = true ->
         device ∈ devices ->
         Device.id device = GraphLink.target link ->
         Device.status device = "online".
Proof.
  intros Hnd. eexists _, _. split; [apply graphData_run|]. cbn.
  intros link device Hlink Hanim Hdev Hid.
  apply allLinks_cases in Hlink
    as [(gateway & d & _ & Hd & ->)|(a & b & _ & Hb & ->)]; cbn in *.
  - assert (device = d) as -> by (by eapply fmap_NoDup_inj).
    by apply bool_decide_eq_true in Hanim.
  - assert (device = b) as -> by (by eapply fmap_NoDup_inj).
    apply andb_true_iff in Hanim as [_ Hanim].
    by apply bool_decide_eq_true in Hanim.
Qed.

(** ** The click handler *)

(** X7: a click on any node of the graph finds a device: the first one in the
    list whose id is the node's id, and the handler is called with it. *)
Theorem click_selects_first_match {St} devices r
    (onDeviceSelect : Device.t -> M St unit) :
  exists g r',
    graphData iconDictionary devices r = Normal (g, r')
    /\ forall node, node ∈ GraphData.nodes g ->
         exists j device,
           devices !! j = Some device
           /\ Device.id device = GraphNode.id node
           /\ (forall k other, devices !! k = Some other -> k < j ->
                 Device.id other <> GraphNode.id node)
           /\ onNodeClick devices (Some onDeviceSelect) node
              = onDeviceSelect device.
Proof.
  eexists _, _. split; [apply graphData_run|]. cbn.
  intros node Hnode.
  assert (Hid : GraphNode.id node ∈ Device.id <$> devices).
  { rewrite <- (id_nodesFrom iconDictionary (supply r) (drawn r)).
    by apply list_elem_of_fmap_2. }
  apply list_elem_of_fmap in Hid as (d & Hd & Hin).
  destruct (list_find_elem_of (fun d => Device.id d = GraphNode.id node)
              devices d Hin (eq_sym Hd)) as [[j device] Hfind].
  pose proof Hfind as (Hj & Hmatch & Hfirst)%list_find_Some.
  exists j, device. split_and!; [done..|].
  unfold onNodeClick, Array_find. by rewrite Hfind.
Qed.

(** X8: with pairwise distinct device ids, a click on the i-th node calls the
    handler with the i-th device. *)
Theorem click_round_trip {St} devices r i device
    (onDeviceSelect : Device.t -> M St unit) :
  NoDup (Device.id <$> devices) ->
  devices !! i = Some device ->
  exists g r' node,
    graphData iconDictionary devices r = Normal (g, r')
    /\ GraphData.nodes g !! i = Some node
    /\ onNodeClick devices (Some onDeviceSelect) node = onDeviceSelect device.
Proof.
  intros Hnd Hi. eexists _, _, _. split; [apply graphData_run|]. cbn.
  split; [by apply lookup_nodesFrom|].
  unfold onNodeClick, Array_find. cbn.
  destruct (list_find_elem_of (fun d => Device.id d = Device.id device)
              devices device) as [[j found] Hfind];
    [by eapply list_elem_of_lookup_2|done|].
  rewrite Hfind. cbn.
  apply list_find_Some in Hfind as (Hj & Hmatch & _).
  f_equal. eapply fmap_NoDup_inj; [exact Hnd|..|done];
    by eapply list_elem_of_lookup_2.
Qed.

(** X9: a click changes nothing when the component was given no handler, or when
    no device has the node's id. *)
Theorem click_without_effect {St} devices
    (onDeviceSelect : option (Device.t -> M St unit))
    (node : GraphNode.t IconComponent) (s : St) :
  onDeviceSelect = None \/ GraphNode.id node ∉ (Device.id <$> devices) ->
  onNodeClick devices onDeviceSelect node s = Normal (tt, s).
Proof.
  unfold onNodeClick, Array_find. intros [->|Hout].
  - by destruct (list_find _ devices).
  - destruct (list_find _ devices) as [[j device]|] eqn:Hfind; [|done].
    apply list_find_Some in Hfind as (Hj & Hmatch & _).
    destruct Hout. rewrite <- Hmatch.
    apply list_elem_of_fmap_2. by eapply list_elem_of_lookup_2.
Qed.

End Graph.

(** ** The component's state over time *)

Section View.

Variable localStorage : gmap string string.

Implicit Types (c : Component.t) (e : Event) (events : list Event).

Lemma rendered_render {C} c (graph : GraphData.t C) :
  rendered (render c graph)
  = if Component.loading c then [LoadingState]
    else
      (if truthyStringOrNull (Component.mapError c) then
         [ErrorState (Component.mapError c)]
       else if truthyString (Component.mapsApiKey c) then
         [MapComponent (Component.mapsApiKey c) (Component.mapDimensions c)]
       else [])
      ++ [ForceGraphComponent graph].
Proof.
  unfold render. cbn.
  destruct (Component.loading c); [done|].
  destruct (truthyStringOrNull (Component.mapError c)); [done|].
  by destruct (truthyString (Component.mapsApiKey c)).
Qed.

Lemma step_keeps_loaded c e :
  Component.loading c = false ->
  Component.loading (step localStorage c e) = false.
Proof.
  intros Hc. destruct e as [[?|]| | |[?|] [?|]| |]; cbn; try done.
  unfold apiKeyEffect.
  destruct (truthyStringOrNull _); [|done].
  by destruct (localStorage !! _).
Qed.

Lemma step_settles c e :
  settles e -> Component.loading (step localStorage c e) = false.
Proof. by destruct e as [| | |[?|] [?|]| |]. Qed.

Lemma run_keeps_loaded events c :
  Component.loading c = false ->
  Component.loading (run localStorage events c) = false.
Proof.
  revert c. induction events as [|e events IH]; intros c Hc; [done|].
  cbn. by apply IH, step_keeps_loaded.
Qed.

(** X10: the loading screen ends with the first pushed list or settled fetch,
    whether the fetch succeeded or failed, and never comes back: from then on
    the force graph is rendered and the loading placeholder is not. *)
Theorem loading_ends events c :
  Component.loading c = false \/ Exists settles events ->
  Component.loading (run localStorage events c) = false
  /\ forall C (graph : GraphData.t C),
       ForceGraphComponent graph
         ∈ rendered (render (run localStorage events c) graph)
       /\ LoadingState ∉ rendered (render (run localStorage events c) graph).
Proof.
  intros Hwhy.
  assert (Hloaded : Component.loading (run localStorage events c) = false).
  { destruct Hwhy as [Hc|Hex]; [by apply run_keeps_loaded|].
    revert c. induction Hex as [e events He|e events _ IH]; intros c; cbn.
    - by apply run_keeps_loaded, step_settles.
    - apply IH. }
  split; [done|]. intros C graph.
  rewrite rendered_render, Hloaded, elem_of_app. split.
  - right. apply list_elem_of_here.
  - destruct (truthyStringOrNull _); [|destruct (truthyString _)]; cbn;
      intros Hin; repeat (apply elem_of_cons in Hin as [Hin|Hin]; [done|]);
      by apply elem_of_nil in Hin.
Qed.

Lemma truthyString_true s : truthyString s = true <-> s <> "".
Proof.
  unfold truthyString. rewrite negb_true_iff, bool_decide_eq_false. done.
Qed.

(** X11: a map failure is always notified, but the error panel replaces the map
    only when the error has a message: with an empty message no error panel
    is rendered, and the map stays mounted exactly when a key is set. *)
Theorem map_error_display {C} message c (graph : GraphData.t C) :
  Component.loading c = false ->
  Component.toasts (handleMapError message c)
  = Component.toasts c
    ++ [Toast.mk "Error" "Failed to load Google Maps" "destructive"]
  /\ (message <> "" ->
      rendered (render (handleMapError message c) graph)
      = [ErrorState (Some message); ForceGraphComponent graph])
  /\ (message = "" ->
      rendered (render (handleMapError message c) graph)
      = (if decide (Component.mapsApiKey c = "") then []
         else [MapComponent (Component.mapsApiKey c) (Component.mapDimensions c)])
        ++ [ForceGraphComponent graph]).
Proof.
  intros Hc. split; [done|].
  rewrite rendered_render. cbn. rewrite Hc. split.
  - intros Hm. apply truthyString_true in Hm. by rewrite Hm.
  - intros ->. cbn. unfold truthyString.
    case_decide as Hkey.
    + by rewrite !bool_decide_eq_true_2.
    + rewrite (bool_decide_eq_true_2 ("" = "")) by done.
      by rewrite bool_decide_eq_false_2.
Qed.

Lemma step_key c e :
  Component.mapsApiKey c = ""
  \/ localStorage !! "VITE_GOOGLE_MAPS_API_KEY" = Some (Component.mapsApiKey c) ->
  Component.mapsApiKey (step localStorage c e) = ""
  \/ localStorage !! "VITE_GOOGLE_MAPS_API_KEY"
     = Some (Component.mapsApiKey (step localStorage c e)).
Proof.
  intros Hc. destruct e as [[?|]| | |[?|] [?|]| |]; cbn; try done.
  unfold apiKeyEffect.
  destruct (localStorage !! _) as [key|] eqn:Hkey; cbn; [|done].
  destruct (truthyString key); cbn; [by right|done].
Qed.

(** X12: the key handed to the map: in every state reached from the first
    render, a mounted map component has the non-empty key stored under
    VITE_GOOGLE_MAPS_API_KEY; so without such a key the map is never
    mounted, whatever happens. *)
Theorem map_key_is_stored_key {C} events (graph : GraphData.t C) key dimensions :
  MapComponent key dimensions
    ∈ rendered (render (run localStorage events Component.initial) graph) ->
  localStorage !! "VITE_GOOGLE_MAPS_API_KEY" = Some key /\ key <> "".
Proof.
  assert (Hinv : forall c,
    Component.mapsApiKey c = ""
    \/ localStorage !! "VITE_GOOGLE_MAPS_API_KEY" = Some (Component.mapsApiKey c) ->
    Component.mapsApiKey (run localStorage events c) = ""
    \/ localStorage !! "VITE_GOOGLE_MAPS_API_KEY"
       = Some (Component.mapsApiKey (run localStorage events c))).
  { induction events as [|e events' IH]; intros c Hc; [done|].
    cbn. by apply IH, step_key. }
  specialize (Hinv Component.initial (or_introl eq_refl)).
  rewrite rendered_render.
  destruct (Component.loading _).
  { intros Hin. apply elem_of_cons in Hin as [?|Hin]; [done|].
    by apply elem_of_nil in Hin. }
  destruct (truthyStringOrNull _).
  { intros Hin. cbn in Hin.
    repeat (apply elem_of_cons in Hin as [?|Hin]; [done|]).
    by apply elem_of_nil in Hin. }
  destruct (truthyString _) eqn:Htruthy; cbn; intros Hin.
  - apply elem_of_cons in Hin as [Heq|Hin].
    + injection Heq as -> _. apply truthyString_true in Htruthy.
      by destruct Hinv.
    + apply elem_of_cons in Hin as [?|Hin]; [done|].
      by apply elem_of_nil in Hin.
  - apply elem_of_cons in Hin as [?|Hin]; [done|].
    by apply elem_of_nil in Hin.
Qed.

Lemma step_toasts c e :
  Component.toasts (step localStorage c e)
  = Component.toasts c
    ++ (if notifies e then
          [Toast.mk "Error"
             (match e with
              | MapFailed _ => "Failed to load Google Maps"
              | _ => "Failed to fetch network data"
              end) "destructive"]
        else []).
Proof.
  destruct e as [[?|]| | |[?|] [?|]| |]; cbn; rewrite ?app_nil_r; try done.
  unfold apiKeyEffect.
  destruct (truthyStringOrNull _); [|done].
  by destruct (localStorage !! _).
Qed.

(** X13: the component notifies once for every failed fetch of its own and once
    for every map failure, and at no other time; every notification is a
    destructive one titled Error. *)
Theorem toasts_count events c :
  length (Component.toasts (run localStorage events c))
  = length (Component.toasts c) + length (filter (fun e => notifies e = true) events)
  /\ (Forall (fun t => Toast.title t = "Error" /\ Toast.variant t = "destructive")
        (Component.toasts c) ->
      Forall (fun t => Toast.title t = "Error" /\ Toast.variant t = "destructive")
        (Component.toasts (run localStorage events c))).
Proof.
  revert c. induction events as [|e events IH]; intros c.
  { cbn. split; [lia|done]. }
  cbn [run foldl]. destruct (IH (step localStorage c e)) as [Hlen Hall].
  fold (run localStorage events (step localStorage c e)).
  split.
  - rewrite Hlen, step_toasts, length_app, filter_cons.
    destruct (notifies e); cbn; case_decide; try done; cbn; lia.
  - intros Hc. apply Hall. rewrite step_toasts. apply Forall_app. split; [done|].
    destruct (notifies e); [|done].
    by apply Forall_singleton.
Qed.

End View.

(** ** The further properties at sample inputs *)

Lemma no_self_link_witness :
  exists g r',
    graphData sampleIcons sampleDevices sampleRandom = Normal (g, r')
    /\ forall link, link ∈ GraphData.links g ->
         GraphLink.source link <> GraphLink.target link.
Proof.
  apply (no_self_link sampleIcons sampleDevices sampleRandom).
  apply (bool_decide_unpack _). vm_compute. exact I.
Defined.

Lemma animated_target_online_witness :
  exists g r',
    graphData sampleIcons sampleDevices sampleRandom = Normal (g, r')
    /\ forall link device,
         link ∈ GraphData.links g ->
         GraphLink.animated link = true ->
         device ∈ sampleDevices ->
         Device.id device = GraphLink.target link ->
         Device.status device = "online".
Proof.
  apply (animated_target_online sampleIcons sampleDevices sampleRandom).
  apply (bool_decide_unpack _). vm_compute. exact I.
Defined.

Lemma gateway_switch_linked_twice_witness :
  exists g r' i j hub chain,
    graphData sampleIcons switchFirstDevices sampleRandom = Normal (g, r')
    /\ i < 2 <= j
    /\ GraphData.links g !! i = Some hub
    /\ GraphData.links g !! j = Some chain
    /\ GraphLink.source hub = "s1"
    /\ GraphLink.source chain = "s1"
    /\ GraphLink.target hub = "s2"
    /\ GraphLink.target chain = "s2".
Proof.
  apply (gateway_switch_linked_twice sampleIcons switchFirstDevices
           (Device.mk "s1" "Switch 1" "switch" "online")
           (Device.mk "s2" "Switch 2" "switch" "offline") sampleRandom);
    reflexivity.
Defined.

Lemma styling_ignores_case_witness :
  getDeviceIcon sampleIcons "ROUTER" = getDeviceIcon sampleIcons "Router".
Proof.
  apply (styling_ignores_case sampleIcons "ROUTER" "Router"). reflexivity.
Defined.

Lemma click_round_trip_witness :
  exists g r' node,
    graphData sampleIcons sampleDevices sampleRandom = Normal (g, r')
    /\ GraphData.nodes g !! 2 = Some node
    /\ onNodeClick sampleDevices (Some push) node
       = push (Device.mk "s2" "Switch 2" "switch" "offline").
Proof.
  apply (click_round_trip sampleIcons sampleDevices sampleRandom 2
           (Device.mk "s2" "Switch 2" "switch" "offline") push).
  - apply (bool_decide_unpack _). vm_compute. exact I.
  - reflexivity.
Defined.

Lemma click_without_effect_witness :
  onNodeClick (St := list Device.t) sampleDevices None
    (GraphNode.mk (C := string) "s2" "Switch 2" "switch" "offline" 1%float None
       (Location.mk 0%float 0%float)) []
  = Normal (tt, []).
Proof.
  apply (click_without_effect (IconComponent := string)). left. reflexivity.
Defined.

Lemma loading_ends_witness :
  Component.loading
    (run sampleStorage [ApiKeyRead; FetchSettled None Rejected; MapLoaded]
       Component.initial) = false.
Proof.
  apply (loading_ends sampleStorage
           [ApiKeyRead; FetchSettled None Rejected; MapLoaded] Component.initial).
  right. apply Exists_cons_tl, Exists_cons_hd. exact I.
Defined.

Lemma map_error_display_witness :
  rendered
    (render
       (handleMapError ""
          (run sampleStorage [ApiKeyRead; DevicesPushed sampleDevices]
             Component.initial))
       (GraphData.mk (C := string) [] []))
  = [MapComponent "key-1" (Dimensions.mk 0 0);
     ForceGraphComponent (GraphData.mk [] [])].
Proof.
  apply (map_error_display (C := string) ""
           (run sampleStorage [ApiKeyRead; DevicesPushed sampleDevices]
              Component.initial)
           (GraphData.mk [] []));
    reflexivity.
Defined.

Lemma map_key_is_stored_key_witness :
  sampleStorage !! "VITE_GOOGLE_MAPS_API_KEY" = Some "key-1" /\ "key-1" <> "".
Proof.
  apply (map_key_is_stored_key (C := string) sampleStorage
           [ApiKeyRead; DevicesPushed sampleDevices] (GraphData.mk [] [])
           "key-1" (Dimensions.mk 0 0)).
  vm_compute. apply list_elem_of_here.
Defined.
